(** * PromptRelay: a shallow embedding of [basics/gemini.py]

    The script is one straight line of effects: read an environment
    variable, print it, build a [genai.Client], read a line from standard
    input, call [generate_content], and write [response.text] to
    [content.md].  Every effect is modelled by explicit state passing over
    a [World]; an uncaught Python exception is the [inl] branch of the
    result, and the world it leaves behind is kept (what was printed stays
    printed, what was truncated stays truncated).

    Python [str] values are modelled by [string]; a text is identified with
    the sequence of its encoded bytes, so the line terminator is the single
    character LF. *)

From stdpp Require Import base strings list gmap.

Open Scope string_scope.
Open Scope list_scope.

(** ** Python values and exceptions *)

(** The values the script manipulates are either [None] or a [str]. *)
Inductive pyval : Type :=
| PyNone
| PyStr (s : string).

#[global] Instance pyval_eq_dec : EqDecision pyval.
Proof. solve_decision. Defined.

(** [str(v)], the conversion [print] applies to its argument. *)
Definition str (v : pyval) : string :=
  match v with
  | PyNone => "None"
  | PyStr s => s
  end.

Inductive exn : Type :=
| EOFError
| TypeError
| IsADirectoryError
| PermissionError
| Other (name : string).

#[global] Instance exn_eq_dec : EqDecision exn.
Proof. solve_decision. Defined.

(** ** The world the script runs in *)

(** A directory entry: a regular file with its write permission and its
    contents, or a directory. *)
Inductive node : Type :=
| File (writable : bool) (data : string)
| Dir.

#[global] Instance node_eq_dec : EqDecision node.
Proof. solve_decision. Defined.

(** The filesystem: the files and directories, each stored under one
    absolute path, and the links.  A link, symbolic or hard, is a further
    path for a file: [links] sends it to the path the file is stored
    under (the end of the chain, for a link to a link). *)
Record filesystem : Type := mkFS {
  nodes : gmap string node;
  links : gmap string string
}.

#[global] Instance filesystem_lookup : Lookup string node filesystem :=
  λ p m, nodes m !! p.

#[global] Instance filesystem_insert : Insert string node filesystem :=
  λ p n m, mkFS (<[p := n]> (nodes m)) (links m).

#[global] Instance filesystem_empty : Empty filesystem := mkFS ∅ ∅.

#[global] Instance filesystem_singleton : SingletonM string node filesystem :=
  λ p n, mkFS {[ p := n ]} ∅.

(** The path under which the file that [p] names is stored: [p] itself
    unless [p] is a link. *)
Definition target (m : filesystem) (p : string) : string :=
  default p (links m !! p).

(** The same files, with [p] made a link to the file stored under [q]. *)
Definition add_link (p q : string) (m : filesystem) : filesystem :=
  mkFS (nodes m) (<[p := q]> (links m)).

(** Everything observable the interpreter does, in program order: the calls
    the script makes with their actual arguments, and the exception that
    ends the run. *)
Inductive event : Type :=
| Call_environ_get (name : string)
| Call_print (v : pyval)
| Call_Client (kwargs : list (string * pyval))
| Call_input
| Call_generate_content (model contents : string)
| Call_open (path mode : string)
| Call_write (path : string) (v : pyval)
| Call_close (path : string)
| Raise (e : exn).

#[global] Instance event_eq_dec : EqDecision event.
Proof. solve_decision. Defined.

Record World : Type := mkWorld {
  environ : gmap string string;   (* os.environ *)
  cwd     : string;               (* current working directory *)
  stdin   : string;               (* what [sys.stdin] has not handed out yet *)
  stdout  : string;               (* what has been written to standard output *)
  fs      : filesystem;           (* the filesystem, by absolute path *)
  trace   : list event            (* history of the run *)
}.

Definition set_stdin (s : string) (w : World) : World :=
  mkWorld (environ w) (cwd w) s (stdout w) (fs w) (trace w).

Definition set_stdout (s : string) (w : World) : World :=
  mkWorld (environ w) (cwd w) (stdin w) s (fs w) (trace w).

Definition set_fs (m : filesystem) (w : World) : World :=
  mkWorld (environ w) (cwd w) (stdin w) (stdout w) m (trace w).

Definition emit (ev : event) (w : World) : World :=
  mkWorld (environ w) (cwd w) (stdin w) (stdout w) (fs w) (trace w ++ [ev]).

(** ** The interpreter monad: state, plus an exception that nothing catches *)

Definition M (A : Type) : Type := World → World * (exn + A).

#[global] Instance M_ret : MRet M := λ A x w, (w, inr x).

#[global] Instance M_bind : MBind M := λ A B k m w,
  match m w with
  | (w', inl e) => (w', inl e)
  | (w', inr x) => k x w'
  end.

Definition raise {A : Type} (e : exn) : M A :=
  λ w, (emit (Raise e) w, inl e).

(** The result of a call into code that either returns or raises. *)
Definition lift {A : Type} (r : exn + A) : M A :=
  match r with
  | inl e => raise e
  | inr x => mret x
  end.

(** Exit status of the interpreter: 0 on normal completion, 1 after an
    uncaught exception. *)
Definition exit_status {A : Type} (r : exn + A) : Z :=
  match r with
  | inl _ => 1%Z
  | inr _ => 0%Z
  end.

(** ** Builtins *)

Definition LF : Ascii.ascii := Ascii.ascii_of_nat 10.
Definition NL : string := String LF "".
Definition SLASH : Ascii.ascii := Ascii.ascii_of_nat 47.

(** [os.environ.get(name)]: the value, or [None] when the name is unset. *)
Definition environ_get (name : string) : M pyval := λ w,
  let w := emit (Call_environ_get name) w in
  match environ w !! name with
  | Some v => (w, inr (PyStr v))
  | None => (w, inr PyNone)
  end.

(** [print(v)]: writes [str(v)] and a newline to standard output. *)
Definition print (v : pyval) : M unit := λ w,
  let w := emit (Call_print v) w in
  (set_stdout (stdout w +:+ str v +:+ NL) w, inr ()).

(** [sys.stdin.readline()]: the next line with its terminator (the rest of
    the stream when no terminator is left), and what remains unread. *)
Fixpoint readline (s : string) : string * string :=
  match s with
  | "" => ("", "")
  | String c rest =>
      if Ascii.eqb c LF then (String c "", rest)
      else let '(l, r) := readline rest in (String c l, r)
  end.

(** Removal of one trailing LF, as [input] does to the line it read. *)
Fixpoint chomp (s : string) : string :=
  match s with
  | "" => ""
  | String c rest =>
      match rest with
      | "" => if Ascii.eqb c LF then "" else s
      | _ => String c (chomp rest)
      end
  end.

(** [input()] without a prompt: one line of standard input without its
    terminator; [EOFError] when end of file is reached at once.  The
    [stdin] of the world is the stream as the interpreter holds it, buffer
    included: how much of it the process has taken from the descriptor, and
    so what another reader of the same pipe would still find, is not
    modelled. *)
Definition input : M string := λ w,
  let w := emit Call_input w in
  let '(line, rest) := readline (stdin w) in
  match line with
  | "" => raise EOFError w
  | _ => (set_stdin rest w, inr (chomp line))
  end.

(** A relative path is taken from the current working directory. *)
Definition is_absolute (p : string) : bool :=
  match p with
  | String c _ => Ascii.eqb c SLASH
  | "" => false
  end.

Fixpoint ends_with_slash (s : string) : bool :=
  match s with
  | "" => false
  | String c rest =>
      match rest with
      | "" => Ascii.eqb c SLASH
      | _ => ends_with_slash rest
      end
  end.

(** The working directory is spelled without a final separator, except the
    root, which is the separator alone: no second one is put after it. *)
Definition resolve (dir p : string) : string :=
  if is_absolute p then p
  else if ends_with_slash dir then dir +:+ p
  else dir +:+ "/" +:+ p.

(** An open file object: the path of the file it was opened on (the file
    at the end of the link, when the name given to [open] is a link). *)
Record handle : Type := mkHandle { h_path : string }.

(** [open(path, "w")]: links are followed; fails on a directory or on a
    file without write permission; otherwise the file is created or
    truncated to length 0. *)
Definition open_w (path : string) : M handle := λ w,
  let w := emit (Call_open path "w") w in
  let p := target (fs w) (resolve (cwd w) path) in
  match fs w !! p with
  | Some Dir => raise IsADirectoryError w
  | Some (File false _) => raise PermissionError w
  | Some (File true _) => (set_fs (<[p := File true ""]> (fs w)) w, inr (mkHandle p))
  | None => (set_fs (<[p := File true ""]> (fs w)) w, inr (mkHandle p))
  end.

(** [file.write(v)]: [TypeError] unless [v] is a [str]; the text goes at the
    end of what the file holds. *)
Definition file_write (file : handle) (v : pyval) : M unit := λ w,
  let w := emit (Call_write (h_path file) v) w in
  match v with
  | PyNone => raise TypeError w
  | PyStr s =>
      match fs w !! h_path file with
      | Some (File b data) =>
          (set_fs (<[h_path file := File b (data +:+ s)]> (fs w)) w, inr ())
      | _ => (set_fs (<[h_path file := File true s]> (fs w)) w, inr ())
      end
  end.

Definition file_close (file : handle) (w : World) : World :=
  emit (Call_close (h_path file)) w.

(** [with open(path, "w") as file: body]: the file is closed when the body
    is left, whether it returned or raised; an exception of the body is
    raised again after the close. *)
Definition with_open_w {A : Type} (path : string) (body : handle → M A) : M A := λ w,
  match open_w path w with
  | (w1, inl e) => (w1, inl e)
  | (w1, inr file) =>
      let '(w2, r) := body file w1 in (file_close file w2, r)
  end.

(** ** The client library

    [google.genai] is not part of the repository: it is an interface the
    script calls into.  The constructor can read the process environment
    (the script passes it nothing else). *)
Record GenAI : Type := mkGenAI {
  client : Type;
  response : Type;
  Client : list (string * pyval) → gmap string string → exn + client;
  generate_content : client → string → string → exn + response;
  text : response → pyval
}.

(** ** The script *)

Definition GEMINI_API_KEY : string := "GEMINI_API_KEY".
Definition MODEL : string := "gemini-2.5-flash".
Definition CONTENT_MD : string := "content.md".

Section Relay.
Context (genai : GenAI).

(** [genai.Client(...)] with the given keyword arguments *)
Definition genai_Client (kwargs : list (string * pyval)) : M (client genai) := λ w,
  let w := emit (Call_Client kwargs) w in
  lift (Client genai kwargs (environ w)) w.

(** [client.models.generate_content(model=..., contents=...)] *)
Definition models_generate_content (c : client genai) (model contents : string)
  : M (response genai) := λ w,
  let w := emit (Call_generate_content model contents) w in
  lift (generate_content genai c model contents) w.

(** The module body of [gemini.py], statement by statement. *)
Definition main : M unit :=
  api ← environ_get GEMINI_API_KEY;
  _ ← print api;
  client ← genai_Client [];
  prompt ← input;
  response ← models_generate_content client MODEL prompt;
  with_open_w CONTENT_MD (λ file, file_write file (text genai response)).

End Relay.

(** ** Test doubles for the client library *)

Module Stub.

(** A client that resolves its key the way the library documents it: an
    explicit [api_key] argument first, then [GOOGLE_API_KEY], then
    [GEMINI_API_KEY]; construction fails when none is given.  The remote
    side answers every request with the request text after ["re: "]. *)
Definition kwarg (name : string) (kwargs : list (string * pyval)) : option string :=
  match list_find (λ kv, kv.1 = name) kwargs with
  | Some (_, (_, PyStr s)) => Some s
  | _ => None
  end.

Definition resolve_key (kwargs : list (string * pyval)) (env : gmap string string)
  : exn + string :=
  match kwarg "api_key" kwargs with
  | Some k => inr k
  | None =>
      match env !! "GOOGLE_API_KEY" with
      | Some k => inr k
      | None =>
          match env !! GEMINI_API_KEY with
          | Some k => inr k
          | None => inl (Other "ValueError")
          end
      end
  end.

Definition echo : GenAI :=
  mkGenAI string pyval resolve_key
    (λ _ _ contents, inr (PyStr ("re: " +:+ contents)))
    id.

(** A client that needs no key and whose remote side always gives the
    same outcome [r]: a response whose [text] is the value, or a fault. *)
Definition canned (r : exn + pyval) : GenAI :=
  mkGenAI unit pyval (λ _ _, inr ()) (λ _ _ _, r) id.

(** A world with the credential set, one prompt line on standard input
    and some files around. *)
Definition w0 : World :=
  mkWorld {[ GEMINI_API_KEY := "k3y" ]} "/home/u" ("hello" +:+ NL +:+ "more") ""
          {[ "/home/u/content.md" := File true "old text";
             "/home/u/notes.txt" := File true "keep" ]} [].

Definition with_environ (e : gmap string string) (w : World) : World :=
  mkWorld e (cwd w) (stdin w) (stdout w) (fs w) (trace w).

(** An environment that sets both names the library looks at. *)
Definition two_keys : gmap string string :=
  {[ "GOOGLE_API_KEY" := "g00g"; GEMINI_API_KEY := "k3y" ]}.

(** The world the first run leaves, and the same world with a second prompt
    on standard input. *)
Definition w1 : World := (main echo w0).1.
Definition w2 : World := set_stdin ("bye" +:+ NL) w1.

End Stub.

(** Worlds for the edges of the script. *)

Module Edge.

(** [content.md] exists and is read-only. *)
Definition w_readonly : World :=
  set_fs {[ "/home/u/content.md" := File false "old text" ]} Stub.w0.


(** The world a run whose response has no text leaves behind, with a new
    prompt on standard input. *)
Definition w_after_fault : World :=
  set_stdin ("again" +:+ NL) (main (Stub.canned (inr PyNone)) Stub.w0).1.

(** [content.md] of the working directory is a link to a file stored
    elsewhere. *)
Definition w_linked : World :=
  set_fs (add_link "/home/u/content.md" "/srv/notes.txt"
            {[ "/srv/notes.txt" := File true "keep" ]}) Stub.w0.

(** The working directory is the root. *)
Definition w_root : World :=
  mkWorld (environ Stub.w0) "/" (stdin Stub.w0) "" ∅ [].

End Edge.

(** ** Observations on a run *)

(** The value [os.environ.get("GEMINI_API_KEY")] has in a world. *)
Definition credential (w : World) : pyval :=
  match environ w !! GEMINI_API_KEY with
  | Some v => PyStr v
  | None => PyNone
  end.

(** What [input()] returns in a world whose standard input is not at end
    of file. *)
Definition prompt_of (w : World) : string := chomp (readline (stdin w)).1.

(** The file [content.md] names in a world: the path it is stored under,
    which is [content.md] of the working directory unless that is a link. *)
Definition content_path (w : World) : string :=
  target (fs w) (resolve (cwd w) CONTENT_MD).

(** The events a run added to the history: those of [w'] after those of [w]. *)
Definition events_of (w w' : World) : list event :=
  drop (length (trace w)) (trace w').

(** [open(p, "w")] succeeds: [p] is neither a directory nor a read-only file. *)
Definition can_open_w (m : filesystem) (p : string) : bool :=
  match m !! p with
  | Some Dir => false
  | Some (File false _) => false
  | Some (File true _) => true
  | None => true
  end.

Definition file_size (m : filesystem) (p : string) : option nat :=
  match m !! p with
  | Some (File _ data) => Some (String.length data)
  | _ => None
  end.

Fixpoint contains_LF (s : string) : bool :=
  match s with
  | "" => false
  | String c rest => Ascii.eqb c LF || contains_LF rest
  end.

(** The path a filesystem call is made on, as the script wrote it or as the
    file object holds it. *)
Definition fs_target (dir : string) (ev : event) : option string :=
  match ev with
  | Call_open p _ => Some (resolve dir p)
  | Call_write p _ => Some p
  | Call_close p => Some p
  | _ => None
  end.

(** The constructor call among [evs] is given the value [api] as its
    [api_key] argument. *)
Definition client_given (evs : list event) (api : pyval) : Prop :=
  ∃ kwargs, Call_Client kwargs ∈ evs ∧ ("api_key", api) ∈ kwargs.

(** Every path other than [content.md] of the working directory holds in
    [w'] what it held in [w]. *)
Definition only_cwd_content_md_changes (w w' : World) : Prop :=
  ∀ p, p ≠ resolve (cwd w) CONTENT_MD → fs w' !! p = fs w !! p.

(** The world after lines 4-5: the lookup and the [print]. *)
Definition printed (w : World) : World :=
  set_stdout (stdout w +:+ str (credential w) +:+ NL)
    (emit (Call_print (credential w)) (emit (Call_environ_get GEMINI_API_KEY) w)).

(** The world after line 9, once the client exists and a line was read. *)
Definition prompted (w : World) : World :=
  set_stdin (readline (stdin w)).2 (emit Call_input (emit (Call_Client []) (printed w))).

(** The world at the moment the request of lines 11-14 has been submitted. *)
Definition requested (w : World) : World :=
  emit (Call_generate_content MODEL (prompt_of w)) (prompted w).

(** Lines 18-19 on the value of [response.text]. *)
Definition persist (v : pyval) : M unit :=
  with_open_w CONTENT_MD (λ file, file_write file v).

(** What is left of the script once the request has been answered by [r]. *)
Definition respond (genai : GenAI) (r : exn + response genai) : M unit := λ w,
  match r with
  | inl e => raise e w
  | inr response => persist (text genai response) w
  end.

(** The events of the five statements, as far as each gets. *)
Definition ev_credential (w : World) : list event :=
  [Call_environ_get GEMINI_API_KEY; Call_print (credential w)].

Definition ev_client (w : World) : list event :=
  ev_credential w ++ [Call_Client []].

Definition ev_request (w : World) : list event :=
  ev_client w ++ [Call_input; Call_generate_content MODEL (prompt_of w)].

Definition ev_open (w : World) : list event :=
  ev_request w ++ [Call_open CONTENT_MD "w"].

(** The points at which a run can fault, with the exception raised there
    and the events the run consists of when it does. *)
Inductive failure (genai : GenAI) (w : World) : exn → list event → Prop :=
| fail_Client e :
    Client genai [] (environ w) = inl e →
    failure genai w e (ev_client w ++ [Raise e])
| fail_input c :
    Client genai [] (environ w) = inr c →
    stdin w = "" →
    failure genai w EOFError (ev_client w ++ [Call_input; Raise EOFError])
| fail_generate_content c e :
    Client genai [] (environ w) = inr c →
    stdin w ≠ "" →
    generate_content genai c MODEL (prompt_of w) = inl e →
    failure genai w e (ev_request w ++ [Raise e])
| fail_open_directory c r :
    Client genai [] (environ w) = inr c →
    stdin w ≠ "" →
    generate_content genai c MODEL (prompt_of w) = inr r →
    fs w !! content_path w = Some Dir →
    failure genai w IsADirectoryError (ev_open w ++ [Raise IsADirectoryError])
| fail_open_permission c r data :
    Client genai [] (environ w) = inr c →
    stdin w ≠ "" →
    generate_content genai c MODEL (prompt_of w) = inr r →
    fs w !! content_path w = Some (File false data) →
    failure genai w PermissionError (ev_open w ++ [Raise PermissionError])
| fail_write c r :
    Client genai [] (environ w) = inr c →
    stdin w ≠ "" →
    generate_content genai c MODEL (prompt_of w) = inr r →
    can_open_w (fs w) (content_path w) = true →
    text genai r = PyNone →
    failure genai w TypeError
      (ev_open w ++ [Call_write (content_path w) PyNone; Raise TypeError;
                     Call_close (content_path w)]).

(** ** Basic facts about the builtins *)

Lemma fs_lookup_insert_eq (m : filesystem) (p : string) (n : node) :
  <[p := n]> m !! p = Some n.
Proof. apply (lookup_insert_eq (nodes m)). Qed.

Lemma fs_lookup_insert_ne (m : filesystem) (p q : string) (n : node) :
  p ≠ q → <[p := n]> m !! q = m !! q.
Proof. apply (lookup_insert_ne (nodes m)). Qed.

Lemma fs_insert_insert_eq (m : filesystem) (p : string) (n n' : node) :
  <[p := n]> (<[p := n']> m) = <[p := n]> m.
Proof.
  unfold insert, filesystem_insert. cbn. f_equal. apply insert_insert_eq.
Qed.

Lemma target_insert (m : filesystem) (p q : string) (n : node) :
  target (<[p := n]> m) q = target m q.
Proof. reflexivity. Qed.

Lemma readline_split (s : string) : (readline s).1 +:+ (readline s).2 = s.
Proof.
  induction s as [|c s IH]; simpl; [done|].
  destruct (Ascii.eqb c LF); simpl; [done|].
  destruct (readline s) as [l r]; simpl in *. by rewrite <- IH.
Qed.

Lemma readline_empty (s : string) : (readline s).1 = "" → s = "".
Proof.
  destruct s as [|c s]; simpl; [done|].
  destruct (Ascii.eqb c LF); [done|]. by destruct (readline s).
Qed.

Lemma readline_line (line rest : string) :
  contains_LF line = false →
  readline (line +:+ NL +:+ rest) = (line +:+ NL, rest).
Proof.
  induction line as [|c line IH]; simpl; [done|].
  intros [Hc Hl]%orb_false_elim. rewrite Hc. by rewrite (IH Hl).
Qed.

Lemma chomp_line (line : string) : chomp (line +:+ NL) = line.
Proof.
  induction line as [|c line IH]; [done|].
  change (String c line +:+ NL) with (String c (line +:+ NL)).
  cbn [chomp]. rewrite IH. by destruct line.
Qed.

Lemma readline_no_inner_LF (s : string) :
  contains_LF (chomp (readline s).1) = false.
Proof.
  induction s as [|c s IH]; [done|]. cbn [readline].
  destruct (Ascii.eqb c LF) eqn:Hc.
  - cbn [fst chomp]. by rewrite Hc.
  - destruct (readline s) as [l r] eqn:Hl. cbn [fst] in *.
    destruct l as [|d l].
    + cbn [chomp]. rewrite Hc. cbn [contains_LF]. by rewrite Hc.
    + change (chomp (String c (String d l))) with (String c (chomp (String d l))).
      cbn [contains_LF]. by rewrite Hc, IH.
Qed.

(** ** Sample runs *)

(** A complete run: the prompt line is consumed, the credential is echoed on
    standard output, and the file is replaced by the answer. *)
Example run_complete :
  let w' := (main Stub.echo Stub.w0).1 in
  (main Stub.echo Stub.w0).2 = inr () ∧
  stdin w' = "more" ∧
  stdout w' = "k3y" +:+ NL ∧
  fs w' !! "/home/u/content.md" = Some (File true "re: hello") ∧
  fs w' !! "/home/u/notes.txt" = Some (File true "keep") ∧
  trace w' =
    [Call_environ_get "GEMINI_API_KEY"; Call_print (PyStr "k3y"); Call_Client [];
     Call_input; Call_generate_content "gemini-2.5-flash" "hello";
     Call_open "content.md" "w"; Call_write "/home/u/content.md" (PyStr "re: hello");
     Call_close "/home/u/content.md"].
Proof. vm_compute. done. Qed.

(** No credential anywhere: [None] is printed, then the constructor of the
    stub raises and nothing else happens. *)
Example run_without_credential :
  let w' := (main Stub.echo (Stub.with_environ ∅ Stub.w0)).1 in
  (main Stub.echo (Stub.with_environ ∅ Stub.w0)).2 = inl (Other "ValueError") ∧
  stdin w' = stdin Stub.w0 ∧
  stdout w' = "None" +:+ NL ∧
  fs w' !! "/home/u/content.md" = Some (File true "old text") ∧
  trace w' =
    [Call_environ_get "GEMINI_API_KEY"; Call_print PyNone; Call_Client [];
     Raise (Other "ValueError")].
Proof. vm_compute. done. Qed.

(** A response without text: the file is already truncated when
    [file.write] raises. *)
Example run_text_None :
  let w' := (main (Stub.canned (inr PyNone)) Stub.w0).1 in
  (main (Stub.canned (inr PyNone)) Stub.w0).2 = inl TypeError ∧
  fs w' !! "/home/u/content.md" = Some (File true "") ∧
  trace w' =
    [Call_environ_get "GEMINI_API_KEY"; Call_print (PyStr "k3y"); Call_Client [];
     Call_input; Call_generate_content "gemini-2.5-flash" "hello";
     Call_open "content.md" "w"; Call_write "/home/u/content.md" PyNone;
     Raise TypeError; Call_close "/home/u/content.md"].
Proof. vm_compute. done. Qed.

(** At the root the file is [/content.md]; through a link it is the file
    the link leads to. *)
Example run_at_root_and_through_link :
  content_path Edge.w_root = "/content.md" ∧
  fs (main Stub.echo Edge.w_root).1 !! "/content.md" = Some (File true "re: hello") ∧
  content_path Edge.w_linked = "/srv/notes.txt" ∧
  fs (main Stub.echo Edge.w_linked).1 !! "/home/u/content.md" = None ∧
  links (fs (main Stub.echo Edge.w_linked).1) !! "/home/u/content.md"
    = Some "/srv/notes.txt".
Proof. vm_compute. done. Qed.

(** [input()] on a few streams. *)
Example input_lines :
  (input (set_stdin ("a b" +:+ NL +:+ "c") Stub.w0)).2 = inr "a b" ∧
  (input (set_stdin NL Stub.w0)).2 = inr "" ∧
  (input (set_stdin "no newline" Stub.w0)).2 = inr "no newline" ∧
  (input (set_stdin "" Stub.w0)).2 = inl EOFError.
Proof. vm_compute. done. Qed.

(** With the stub's key resolution, a world that sets only
    [GEMINI_API_KEY] gives a client holding the value the script looked up. *)
Lemma resolve_key_GEMINI (w : World) (k : string) :
  environ w !! "GOOGLE_API_KEY" = None →
  environ w !! GEMINI_API_KEY = Some k →
  Stub.resolve_key [] (environ w) = inr k ∧ credential w = PyStr k.
Proof.
  intros Hgoogle Hgemini. unfold Stub.resolve_key, credential. cbn.
  by rewrite Hgoogle, Hgemini.
Qed.

(** ** How a run unfolds *)

Section Unfolding.
Context (genai : GenAI).
Implicit Types (w : World) (c : client genai) (r : response genai) (e : exn).

(** Lines 4-7: the client cannot be built. *)
Lemma main_Client_raises w e :
  Client genai [] (environ w) = inl e →
  main genai w = (emit (Raise e) (emit (Call_Client []) (printed w)), inl e).
Proof.
  intros HC. unfold main, mbind, M_bind, environ_get, print, genai_Client,
    printed, credential.
  cbn. destruct (environ w !! GEMINI_API_KEY); cbn; by rewrite HC.
Qed.

(** Line 9: standard input is at end of file. *)
Lemma main_input_raises w c :
  Client genai [] (environ w) = inr c →
  stdin w = "" →
  main genai w =
    (emit (Raise EOFError) (emit Call_input (emit (Call_Client []) (printed w))),
     inl EOFError).
Proof.
  intros HC Hin. unfold main, mbind, M_bind, environ_get, print, genai_Client,
    input, printed, credential.
  cbn. destruct (environ w !! GEMINI_API_KEY); cbn; rewrite HC; cbn;
    by rewrite Hin.
Qed.

(** Lines 4-14: the request is submitted on the client just built, for the
    fixed model, with the line read as its contents. *)
Lemma main_respond w c :
  Client genai [] (environ w) = inr c →
  stdin w ≠ "" →
  main genai w =
    respond genai (generate_content genai c MODEL (prompt_of w)) (requested w).
Proof.
  intros HC Hin. unfold main, mbind, M_bind, environ_get, print, genai_Client,
    input, models_generate_content, requested, prompted, prompt_of, printed,
    credential, respond, persist, lift.
  pose proof (readline_empty (stdin w)) as Hne.
  cbn. destruct (environ w !! GEMINI_API_KEY); cbn; rewrite HC; cbn;
    destruct (readline (stdin w)) as [[|a l] rest]; cbn in *;
    try (by destruct Hin; apply Hne);
    by destruct (generate_content genai c MODEL _).
Qed.

(** Lines 18-19 when the file can be opened and the text is a [str]. *)
Lemma persist_str w s :
  can_open_w (fs w) (content_path w) = true →
  persist (PyStr s) w =
    (emit (Call_close (content_path w))
       (set_fs (<[content_path w := File true s]> (fs w))
          (emit (Call_write (content_path w) (PyStr s))
             (emit (Call_open CONTENT_MD "w") w))),
     inr ()).
Proof.
  unfold can_open_w, persist, with_open_w, open_w, file_write, file_close, content_path.
  intros Hopen. cbn.
  destruct (fs w !! target (fs w) (resolve (cwd w) CONTENT_MD)) as [[[|] data|]|]; try done;
    cbn; rewrite fs_lookup_insert_eq; cbn; by rewrite fs_insert_insert_eq.
Qed.

(** Lines 18-19 when the file can be opened and the text is [None]. *)
Lemma persist_None w :
  can_open_w (fs w) (content_path w) = true →
  persist PyNone w =
    (emit (Call_close (content_path w))
       (emit (Raise TypeError)
          (emit (Call_write (content_path w) PyNone)
             (set_fs (<[content_path w := File true ""]> (fs w))
                (emit (Call_open CONTENT_MD "w") w)))),
     inl TypeError).
Proof.
  unfold can_open_w, persist, with_open_w, open_w, file_write, file_close, content_path.
  intros Hopen. cbn.
  by destruct (fs w !! target (fs w) (resolve (cwd w) CONTENT_MD)) as [[[|] data|]|].
Qed.

(** Line 18 when the file cannot be opened. *)
Lemma persist_open_raises w v :
  can_open_w (fs w) (content_path w) = false →
  persist v w =
    let e := match fs w !! content_path w with
             | Some Dir => IsADirectoryError
             | _ => PermissionError
             end in
    (emit (Raise e) (emit (Call_open CONTENT_MD "w") w), inl e).
Proof.
  unfold can_open_w, persist, with_open_w, open_w, content_path.
  intros Hopen. cbn.
  by destruct (fs w !! target (fs w) (resolve (cwd w) CONTENT_MD)) as [[[|] data|]|].
Qed.

Lemma events_of_app w w' evs :
  trace w' = trace w ++ evs → events_of w w' = evs.
Proof. unfold events_of. intros ->. by rewrite drop_app_length. Qed.

End Unfolding.

(** Case analysis on a run: which library calls return, whether a line is
    there to read, whether the file can be opened, what [response.text] is. *)
Ltac run_cases genai w :=
  let e := fresh "e" in let c := fresh "c" in let r := fresh "r" in
  let t := fresh "t" in
  let HC := fresh "HC" in let Hin := fresh "Hin" in let HG := fresh "HG" in
  let HO := fresh "HO" in let HT := fresh "HT" in
  destruct (Client genai [] (environ w)) as [e|c] eqn:HC;
  [ rewrite (main_Client_raises genai w e HC)
  | destruct (decide (stdin w = "")) as [Hin|Hin];
    [ rewrite (main_input_raises genai w c HC Hin)
    | rewrite (main_respond genai w c HC Hin);
      destruct (generate_content genai c MODEL (prompt_of w)) as [e|r] eqn:HG;
      unfold respond;
      [ | destruct (can_open_w (fs w) (content_path w)) eqn:HO;
          [ destruct (text genai r) as [|t] eqn:HT;
            [ rewrite persist_None by exact HO
            | rewrite persist_str by exact HO ]
          | rewrite persist_open_raises by exact HO ] ] ] ].

(** Brings the events of a run, written as a chain of [emit], to a list. *)
Ltac run_events :=
  unfold events_of, raise;
  cbn [fst snd trace fs stdout stdin cwd environ emit set_fs set_stdin set_stdout
       printed prompted requested];
  rewrite <- ?app_assoc; rewrite ?drop_app_length; cbn [app].

Section Runs.
Context (genai : GenAI).
Implicit Types (w : World) (c : client genai) (r : response genai) (e : exn).

Lemma main_stdout w :
  stdout (main genai w).1 = stdout w +:+ str (credential w) +:+ NL.
Proof.
  run_cases genai w; reflexivity.
Qed.

Lemma main_cwd w : cwd (main genai w).1 = cwd w.
Proof.
  run_cases genai w; reflexivity.
Qed.

(** Every run is either one of the faults or a complete one. *)
Lemma main_failure w e evs :
  failure genai w e evs →
  (main genai w).2 = inl e ∧ events_of w (main genai w).1 = evs.
Proof.
  intros Hf. destruct Hf as
    [e HC | c HC Hin | c e HC Hin HG | c r HC Hin HG HD | c r data HC Hin HG HD
    | c r HC Hin HG HO HT].
  - rewrite (main_Client_raises genai w e HC). split; [done|]. run_events. done.
  - rewrite (main_input_raises genai w c HC Hin). split; [done|]. run_events. done.
  - rewrite (main_respond genai w c HC Hin), HG. unfold respond.
    split; [done|]. run_events. done.
  - rewrite (main_respond genai w c HC Hin), HG. unfold respond.
    assert (can_open_w (fs w) (content_path w) = false) as HO
      by (unfold can_open_w; by rewrite HD).
    rewrite persist_open_raises by exact HO.
    change (fs (requested w) !! content_path (requested w))
      with (fs w !! content_path w).
    rewrite HD. cbv zeta. split; [done|]. run_events. done.
  - rewrite (main_respond genai w c HC Hin), HG. unfold respond.
    assert (can_open_w (fs w) (content_path w) = false) as HO
      by (unfold can_open_w; by rewrite HD).
    rewrite persist_open_raises by exact HO.
    change (fs (requested w) !! content_path (requested w))
      with (fs w !! content_path w).
    rewrite HD. cbv zeta. split; [done|]. run_events. done.
  - rewrite (main_respond genai w c HC Hin), HG. unfold respond. rewrite HT.
    rewrite persist_None by exact HO. split; [done|]. run_events. done.
Qed.

End Runs.

Section Complete_runs.
Context (genai : GenAI).
Implicit Types (w : World) (c : client genai) (r : response genai) (e : exn).

(** A run whose five calls all return ends normally, with the text in the
    file and the file closed. *)
Lemma main_completes w c r t :
  Client genai [] (environ w) = inr c →
  stdin w ≠ "" →
  generate_content genai c MODEL (prompt_of w) = inr r →
  text genai r = PyStr t →
  can_open_w (fs w) (content_path w) = true →
  (main genai w).2 = inr () ∧
  fs (main genai w).1 = <[content_path w := File true t]> (fs w) ∧
  events_of w (main genai w).1 =
    ev_open w ++ [Call_write (content_path w) (PyStr t); Call_close (content_path w)].
Proof.
  intros HC Hin HG HT HO.
  rewrite (main_respond genai w c HC Hin), HG. unfold respond. rewrite HT.
  rewrite persist_str by exact HO.
  split; [done|]. split; [done|]. run_events. done.
Qed.

(** A run that ends normally is one whose five calls all returned. *)
Lemma main_normal_inv w :
  (main genai w).2 = inr () →
  ∃ c r t,
    Client genai [] (environ w) = inr c ∧ stdin w ≠ "" ∧
    generate_content genai c MODEL (prompt_of w) = inr r ∧
    text genai r = PyStr t ∧ can_open_w (fs w) (content_path w) = true.
Proof.
  run_cases genai w; cbn [snd raise]; try discriminate.
  intros _. by exists c, r, t.
Qed.

(** A run that ends abnormally is one of the faults of [failure]. *)
Lemma main_abnormal_inv w e :
  (main genai w).2 = inl e →
  failure genai w e (events_of w (main genai w).1).
Proof.
  intros Hout.
  assert (∃ e' evs, failure genai w e' evs) as (e' & evs & Hf).
  { destruct (Client genai [] (environ w)) as [e1|c] eqn:HC.
    { eexists _, _. by apply fail_Client. }
    destruct (decide (stdin w = "")) as [Hin|Hin].
    { eexists _, _. by eapply fail_input. }
    destruct (generate_content genai c MODEL (prompt_of w)) as [e1|r] eqn:HG.
    { eexists _, _. by eapply fail_generate_content. }
    destruct (fs w !! content_path w) as [[[|] data|]|] eqn:HD.
    - destruct (text genai r) as [|t] eqn:HT.
      + eexists _, _. eapply fail_write; eauto. unfold can_open_w. by rewrite HD.
      + destruct (main_completes w c r t) as [Hok _]; auto.
        { unfold can_open_w. by rewrite HD. }
        congruence.
    - eexists _, _. by eapply fail_open_permission.
    - eexists _, _. by eapply fail_open_directory.
    - destruct (text genai r) as [|t] eqn:HT.
      + eexists _, _. eapply fail_write; eauto. unfold can_open_w. by rewrite HD.
      + destruct (main_completes w c r t) as [Hok _]; auto.
        { unfold can_open_w. by rewrite HD. }
        congruence. }
  destruct (main_failure genai w e' evs Hf) as [Hout' Hev].
  rewrite Hev. congruence.
Qed.

End Complete_runs.

(** ** The claims *)

(** What a complete run leaves in [content.md]. *)
Lemma complete_run_file
    (genai : GenAI) (w : World) (c : client genai) (r : response genai) (t : string) :
  Client genai [] (environ w) = inr c →
  stdin w ≠ "" →
  generate_content genai c MODEL (prompt_of w) = inr r →
  text genai r = PyStr t →
  can_open_w (fs w) (content_path w) = true →
  (main genai w).2 = inr () ∧
  fs (main genai w).1 !! content_path w = Some (File true t) ∧
  file_size (fs (main genai w).1) (content_path w) = Some (String.length t).
Proof.
  intros HC Hin HG HT HO.
  destruct (main_completes genai w c r t HC Hin HG HT HO) as (Hout & Hfs & _).
  assert (fs (main genai w).1 !! content_path w = Some (File true t)) as Hfile
    by (rewrite Hfs; apply fs_lookup_insert_eq).
  split; [exact Hout|]. split; [exact Hfile|].
  unfold file_size. by rewrite Hfile.
Qed.

(** C1. When the client is built, a line is read, the remote service
    answers with a response whose text is the string [t], and [content.md]
    can be opened for writing, the run ends normally and [content.md]
    holds exactly [t]; its size is the length of [t], so an empty text
    leaves an empty file of zero bytes. *)
Theorem content_md_holds_response_text
    (genai : GenAI) (w : World) (c : client genai) (r : response genai) (t : string) :
  Client genai [] (environ w) = inr c →
  stdin w ≠ "" →
  generate_content genai c MODEL (prompt_of w) = inr r →
  text genai r = PyStr t →
  can_open_w (fs w) (content_path w) = true →
  (main genai w).2 = inr () ∧
  fs (main genai w).1 !! content_path w = Some (File true t) ∧
  file_size (fs (main genai w).1) (content_path w) = Some (String.length t) ∧
  (t = "" →
   fs (main genai w).1 !! content_path w = Some (File true "") ∧
   file_size (fs (main genai w).1) (content_path w) = Some 0).
Proof.
  intros HC Hin HG HT HO.
  destruct (complete_run_file genai w c r t HC Hin HG HT HO)
    as (Hout & Hfile & Hsize).
  split; [exact Hout|]. split; [exact Hfile|]. split; [exact Hsize|].
  intros ->. split; [exact Hfile | exact Hsize].
Qed.

Lemma content_md_holds_response_text_witness :
  (main Stub.echo Stub.w0).2 = inr () ∧
  fs (main Stub.echo Stub.w0).1 !! content_path Stub.w0 = Some (File true "re: hello") ∧
  file_size (fs (main Stub.echo Stub.w0).1) (content_path Stub.w0)
    = Some (String.length "re: hello") ∧
  ("re: hello" = "" →
   fs (main Stub.echo Stub.w0).1 !! content_path Stub.w0 = Some (File true "") ∧
   file_size (fs (main Stub.echo Stub.w0).1) (content_path Stub.w0) = Some 0).
Proof.
  apply (content_md_holds_response_text Stub.echo Stub.w0 "k3y" (PyStr "re: hello")
           "re: hello").
  - vm_compute. reflexivity.
  - vm_compute. discriminate.
  - vm_compute. reflexivity.
  - reflexivity.
  - vm_compute. reflexivity.
Defined.

(** C2. After a run that ended normally, a second run (whatever its
    prompt, and whatever the remote service answers this time) that gets a
    response with text [t] ends normally too and leaves [content.md] holding
    exactly [t]: nothing of what the first run wrote is kept. *)
Theorem second_run_replaces_first
    (genai1 genai2 : GenAI) (w0 w1 w1' : World)
    (c : client genai2) (r : response genai2) (t : string) :
  main genai1 w0 = (w1, inr ()) →
  fs w1' = fs w1 →
  cwd w1' = cwd w1 →
  Client genai2 [] (environ w1') = inr c →
  stdin w1' ≠ "" →
  generate_content genai2 c MODEL (prompt_of w1') = inr r →
  text genai2 r = PyStr t →
  (main genai2 w1').2 = inr () ∧
  fs (main genai2 w1').1 !! content_path w1' = Some (File true t) ∧
  file_size (fs (main genai2 w1').1) (content_path w1') = Some (String.length t).
Proof.
  intros Hrun1 Hfs Hcwd HC Hin HG HT.
  assert ((main genai1 w0).2 = inr ()) as Hok1 by (by rewrite Hrun1).
  destruct (main_normal_inv genai1 w0 Hok1) as (c1 & r1 & t1 & HC1 & Hin1 & HG1 & HT1 & HO1).
  destruct (main_completes genai1 w0 c1 r1 t1 HC1 Hin1 HG1 HT1 HO1) as (_ & Hfs1 & _).
  pose proof (main_cwd genai1 w0) as Hcwd1.
  rewrite Hrun1 in Hfs1, Hcwd1. cbn [fst] in Hfs1, Hcwd1.
  assert (can_open_w (fs w1') (content_path w1') = true) as HO.
  { unfold can_open_w, content_path. rewrite Hfs, Hcwd, Hcwd1, Hfs1.
    fold (content_path w0). by rewrite fs_lookup_insert_eq. }
  destruct (complete_run_file genai2 w1' c r t HC Hin HG HT HO)
    as (Hout & Hfile & Hsize).
  done.
Qed.

Lemma second_run_replaces_first_witness :
  (main Stub.echo Stub.w2).2 = inr () ∧
  fs (main Stub.echo Stub.w2).1 !! content_path Stub.w2 = Some (File true "re: bye") ∧
  file_size (fs (main Stub.echo Stub.w2).1) (content_path Stub.w2)
    = Some (String.length "re: bye").
Proof.
  apply (second_run_replaces_first Stub.echo Stub.echo Stub.w0 Stub.w1 Stub.w2
           "k3y" (PyStr "re: bye") "re: bye").
  - vm_compute. reflexivity.
  - vm_compute. reflexivity.
  - vm_compute. reflexivity.
  - vm_compute. reflexivity.
  - vm_compute. discriminate.
  - vm_compute. reflexivity.
  - vm_compute. reflexivity.
Defined.

(** C6. When the response's text is [None] (the client is built, a line
    is read, the service answers, and [content.md] can be opened), the run
    ends with the [TypeError] of [file.write]: the write is attempted on
    [None] itself, with no test before it, after the file has been opened
    and truncated. *)
Theorem absent_text_faults_at_write
    (genai : GenAI) (w : World) (c : client genai) (r : response genai) :
  Client genai [] (environ w) = inr c →
  stdin w ≠ "" →
  generate_content genai c MODEL (prompt_of w) = inr r →
  text genai r = PyNone →
  can_open_w (fs w) (content_path w) = true →
  (main genai w).2 = inl TypeError ∧
  events_of w (main genai w).1 =
    ev_open w ++ [Call_write (content_path w) PyNone; Raise TypeError;
                  Call_close (content_path w)] ∧
  fs (main genai w).1 !! content_path w = Some (File true "").
Proof.
  intros HC Hin HG HT HO.
  destruct (main_failure genai w TypeError _ (fail_write genai w c r HC Hin HG HO HT))
    as [Hout Hev].
  split; [exact Hout|]. split; [exact Hev|].
  rewrite (main_respond genai w c HC Hin), HG. unfold respond. rewrite HT.
  rewrite persist_None by exact HO. apply fs_lookup_insert_eq.
Qed.

Lemma absent_text_faults_at_write_witness :
  (main (Stub.canned (inr PyNone)) Stub.w0).2 = inl TypeError ∧
  events_of Stub.w0 (main (Stub.canned (inr PyNone)) Stub.w0).1 =
    ev_open Stub.w0 ++ [Call_write (content_path Stub.w0) PyNone; Raise TypeError;
                        Call_close (content_path Stub.w0)] ∧
  fs (main (Stub.canned (inr PyNone)) Stub.w0).1 !! content_path Stub.w0
    = Some (File true "").
Proof.
  apply (absent_text_faults_at_write (Stub.canned (inr PyNone)) Stub.w0 () PyNone).
  - reflexivity.
  - vm_compute. discriminate.
  - reflexivity.
  - reflexivity.
  - vm_compute. reflexivity.
Defined.

(** C7. At each point where the script can fault (the client cannot be
    built, standard input is at end of file, the request fails, the file
    cannot be opened, the text cannot be written) the exception raised
    there is the outcome of the run, the exit status is 1, and the run
    consists of the calls up to the faulting one and nothing after it
    (the [with] block closes the file it had opened). *)
Theorem faults_propagate (genai : GenAI) (w : World) (e : exn) (evs : list event) :
  failure genai w e evs →
  (main genai w).2 = inl e ∧
  exit_status (main genai w).2 = 1%Z ∧
  events_of w (main genai w).1 = evs ∧
  last evs ∈ [Some (Raise e); Some (Call_close (content_path w))].
Proof.
  intros Hf. destruct (main_failure genai w e evs Hf) as [Hout Hev].
  split; [exact Hout|]. split; [by rewrite Hout|]. split; [exact Hev|].
  destruct Hf; rewrite ?last_app; cbn; set_solver.
Qed.

Lemma faults_propagate_witness :
  (main (Stub.canned (inl (Other "ServerError"))) Stub.w0).2 = inl (Other "ServerError") ∧
  exit_status (main (Stub.canned (inl (Other "ServerError"))) Stub.w0).2 = 1%Z ∧
  events_of Stub.w0 (main (Stub.canned (inl (Other "ServerError"))) Stub.w0).1
    = ev_request Stub.w0 ++ [Raise (Other "ServerError")] ∧
  last (ev_request Stub.w0 ++ [Raise (Other "ServerError")])
    ∈ [Some (Raise (Other "ServerError")); Some (Call_close (content_path Stub.w0))].
Proof.
  apply (faults_propagate (Stub.canned (inl (Other "ServerError"))) Stub.w0).
  apply (fail_generate_content (Stub.canned (inl (Other "ServerError"))) Stub.w0 ()).
  - reflexivity.
  - vm_compute. discriminate.
  - reflexivity.
Defined.

(** Membership in an explicit list of events, case by case. *)
Ltac in_events H :=
  repeat (apply elem_of_cons in H as [H|H]; [try subst|]);
  try (by apply elem_of_nil in H).

(** Every run starts with the lookup and the [print]; what ends a run
    abnormally comes after them. *)
Lemma main_starts_with_print (genai : GenAI) (w : World) :
  ∃ rest,
    events_of w (main genai w).1 = ev_credential w ++ rest ∧
    ∀ e, (main genai w).2 = inl e → Raise e ∈ rest.
Proof.
  destruct (main genai w).2 as [e|[]] eqn:Hout.
  - pose proof (main_abnormal_inv genai w e Hout) as Hf.
    destruct Hf; eexists; (split; [unfold ev_open, ev_request, ev_client;
      rewrite <- ?app_assoc; reflexivity|]);
      intros e' [= <-]; set_solver.
  - destruct (main_normal_inv genai w Hout) as (c & r & t & HC & Hin & HG & HT & HO).
    destruct (main_completes genai w c r t HC Hin HG HT HO) as (_ & _ & Hev).
    eexists. split; [rewrite Hev; unfold ev_open, ev_request, ev_client;
      rewrite <- ?app_assoc; reflexivity|].
    intros e' [=].
Qed.

(** C3. When [GEMINI_API_KEY] is unset, the value looked up is [None], the
    script prints it (standard output gets the text [None] and a newline),
    and the [print] is the second event of the run: an exception that ends
    the run is raised after it. *)
Theorem unset_credential_printed_before_failure (genai : GenAI) (w : World) :
  environ w !! GEMINI_API_KEY = None →
  credential w = PyNone ∧
  stdout (main genai w).1 = stdout w +:+ "None" +:+ NL ∧
  ∃ rest,
    events_of w (main genai w).1
      = Call_environ_get GEMINI_API_KEY :: Call_print PyNone :: rest ∧
    ∀ e, (main genai w).2 = inl e → Raise e ∈ rest.
Proof.
  intros Hunset.
  assert (credential w = PyNone) as Hcred by (unfold credential; by rewrite Hunset).
  split; [exact Hcred|]. split.
  - by rewrite main_stdout, Hcred.
  - destruct (main_starts_with_print genai w) as (rest & Hev & Hraise).
    exists rest. split; [|exact Hraise].
    rewrite Hev. unfold ev_credential. by rewrite Hcred.
Qed.

Lemma unset_credential_printed_before_failure_witness :
  credential (Stub.with_environ ∅ Stub.w0) = PyNone ∧
  stdout (main Stub.echo (Stub.with_environ ∅ Stub.w0)).1
    = stdout (Stub.with_environ ∅ Stub.w0) +:+ "None" +:+ NL ∧
  ∃ rest,
    events_of (Stub.with_environ ∅ Stub.w0)
        (main Stub.echo (Stub.with_environ ∅ Stub.w0)).1
      = Call_environ_get GEMINI_API_KEY :: Call_print PyNone :: rest ∧
    ∀ e, (main Stub.echo (Stub.with_environ ∅ Stub.w0)).2 = inl e → Raise e ∈ rest.
Proof.
  apply (unset_credential_printed_before_failure Stub.echo (Stub.with_environ ∅ Stub.w0)).
  vm_compute. reflexivity.
Defined.

(** Once the client is built and a line is read, the run is the request
    on that client, and no other request is made. *)
Lemma request_on_built_client
    (genai : GenAI) (w : World) (c : client genai) :
  Client genai [] (environ w) = inr c →
  stdin w ≠ "" →
  main genai w
    = respond genai (generate_content genai c MODEL (prompt_of w)) (requested w) ∧
  ∀ model contents,
    Call_generate_content model contents ∈ events_of w (main genai w).1 ↔
    model = MODEL ∧ contents = prompt_of w.
Proof.
  intros HC Hin. split; [by apply main_respond|].
  intros model contents.
  destruct (main genai w).2 as [e|[]] eqn:Hout.
  - pose proof (main_abnormal_inv genai w e Hout) as Hf.
    destruct Hf; try congruence;
      unfold ev_open, ev_request, ev_client, ev_credential; cbn [app];
      (split; [intros Hk; in_events Hk; try discriminate; by injection Hk as -> ->
              | intros [-> ->]; set_solver]).
  - destruct (main_normal_inv genai w Hout) as (c' & r & t & HC' & Hin' & HG & HT & HO).
    destruct (main_completes genai w c' r t HC' Hin' HG HT HO) as (_ & _ & Hev).
    rewrite Hev. unfold ev_open, ev_request, ev_client, ev_credential; cbn [app].
    split; [intros Hk; in_events Hk; try discriminate; by injection Hk as -> ->
           | intros [-> ->]; set_solver].
Qed.

(** C4, as worded, fails.  In a world where [GEMINI_API_KEY] is ["k3y"] the
    script looks up ["k3y"], yet the one constructor call of the run has no
    argument at all; and with a library that resolves its key from the
    environment as documented, a world that also sets [GOOGLE_API_KEY]
    yields a client holding that other key. *)
Lemma client_not_given_credential :
  credential Stub.w0 = PyStr "k3y" ∧
  ¬ client_given (events_of Stub.w0 (main Stub.echo Stub.w0).1) (credential Stub.w0) ∧
  credential (Stub.with_environ Stub.two_keys Stub.w0) = PyStr "k3y" ∧
  Client Stub.echo [] (environ (Stub.with_environ Stub.two_keys Stub.w0)) = inr "g00g".
Proof.
  split; [reflexivity|]. split; [|split; vm_compute; reflexivity].
  intros (kwargs & Hcall & Hkey).
  vm_compute in Hcall. in_events Hcall; try discriminate.
  injection Hcall as ->. by apply elem_of_nil in Hkey.
Qed.

(** C4, amended.  The constructor is called once, after the lookup and
    the [print], with no argument: the value the script looked up goes to
    [print] only.  When the client [c] is built and a line is read, the rest
    of the run is the request submitted on [c] for the fixed model with the
    line as contents, and that is the only request of the run. *)
Theorem client_built_bare_request_fixed (genai : GenAI) (w : World) :
  (∃ rest,
     events_of w (main genai w).1
       = [Call_environ_get GEMINI_API_KEY; Call_print (credential w); Call_Client []]
         ++ rest ∧
     ∀ kwargs, Call_Client kwargs ∉ rest) ∧
  (∀ c : client genai,
     Client genai [] (environ w) = inr c →
     stdin w ≠ "" →
     main genai w
       = respond genai (generate_content genai c MODEL (prompt_of w)) (requested w) ∧
     ∀ model contents,
       Call_generate_content model contents ∈ events_of w (main genai w).1 ↔
       model = "gemini-2.5-flash" ∧ contents = prompt_of w).
Proof.
  split.
  - destruct (main genai w).2 as [e|[]] eqn:Hout.
    + pose proof (main_abnormal_inv genai w e Hout) as Hf.
      destruct Hf; eexists; (split; [unfold ev_open, ev_request, ev_client, ev_credential;
        rewrite <- ?app_assoc; reflexivity|]);
        intros kwargs Hk; cbn in Hk; in_events Hk; discriminate.
    + destruct (main_normal_inv genai w Hout) as (c & r & t & HC & Hin & HG & HT & HO).
      destruct (main_completes genai w c r t HC Hin HG HT HO) as (_ & _ & Hev).
      eexists. split; [rewrite Hev; unfold ev_open, ev_request, ev_client, ev_credential;
        rewrite <- ?app_assoc; reflexivity|].
      intros kwargs Hk; cbn in Hk; in_events Hk; discriminate.
  - intros c HC Hin. exact (request_on_built_client genai w c HC Hin).
Qed.

(** C5. When the first line of standard input is empty, [input()] returns
    the empty string and the request is submitted with the empty string as
    its contents. *)
Theorem empty_prompt_passed_unchanged
    (genai : GenAI) (w : World) (c : client genai) (rest : string) :
  stdin w = NL +:+ rest →
  Client genai [] (environ w) = inr c →
  prompt_of w = "" ∧
  main genai w = respond genai (generate_content genai c MODEL "") (requested w) ∧
  Call_generate_content MODEL "" ∈ events_of w (main genai w).1.
Proof.
  intros Hline HC.
  assert (prompt_of w = "") as Hprompt by (unfold prompt_of; by rewrite Hline).
  assert (stdin w ≠ "") as Hin by (by rewrite Hline).
  split; [exact Hprompt|].
  destruct (request_on_built_client genai w c HC Hin) as [Hrun Hreq].
  rewrite Hprompt in Hrun, Hreq. split; [exact Hrun|]. by apply Hreq.
Qed.

Lemma empty_prompt_passed_unchanged_witness :
  prompt_of (set_stdin (NL +:+ "more") Stub.w0) = "" ∧
  main Stub.echo (set_stdin (NL +:+ "more") Stub.w0)
    = respond Stub.echo (generate_content Stub.echo "k3y" MODEL "")
        (requested (set_stdin (NL +:+ "more") Stub.w0)) ∧
  Call_generate_content MODEL ""
    ∈ events_of (set_stdin (NL +:+ "more") Stub.w0)
        (main Stub.echo (set_stdin (NL +:+ "more") Stub.w0)).1.
Proof.
  apply (empty_prompt_passed_unchanged Stub.echo (set_stdin (NL +:+ "more") Stub.w0)
           "k3y" "more").
  - reflexivity.
  - vm_compute. reflexivity.
Defined.

(** C10. The contents of a request the run submits hold no line
    terminator; when standard input starts with a line [line] followed by
    its terminator, the contents are [line], without the terminator. *)
Theorem prompt_has_newline_stripped
    (genai : GenAI) (w : World) (model contents : string) :
  Call_generate_content model contents ∈ events_of w (main genai w).1 →
  contents = prompt_of w ∧
  contains_LF contents = false ∧
  ∀ line rest,
    stdin w = line +:+ NL +:+ rest → contains_LF line = false → contents = line.
Proof.
  intros Hreq.
  assert (contents = prompt_of w) as ->.
  { destruct (Client genai [] (environ w)) as [e|c] eqn:HC.
    { exfalso. destruct (main_failure genai w e _ (fail_Client genai w e HC)) as [_ Hev].
      rewrite Hev in Hreq. cbn in Hreq. in_events Hreq; discriminate. }
    destruct (decide (stdin w = "")) as [Hin|Hin].
    { exfalso. destruct (main_failure genai w _ _ (fail_input genai w c HC Hin)) as [_ Hev].
      rewrite Hev in Hreq. cbn in Hreq. in_events Hreq; discriminate. }
    destruct (request_on_built_client genai w c HC Hin) as [_ Hiff].
    by apply Hiff in Hreq as [_ ->]. }
  split; [done|]. split; [apply readline_no_inner_LF|].
  intros line rest Hline Hno. unfold prompt_of.
  rewrite Hline, (readline_line line rest Hno). apply chomp_line.
Qed.

Lemma prompt_has_newline_stripped_witness :
  "hello" = prompt_of Stub.w0 ∧
  contains_LF "hello" = false ∧
  ∀ line rest,
    stdin Stub.w0 = line +:+ NL +:+ rest → contains_LF line = false → "hello" = line.
Proof.
  apply (prompt_has_newline_stripped Stub.echo Stub.w0 MODEL "hello").
  vm_compute. set_solver.
Defined.

(** What a run does to the filesystem and the filesystem calls it makes,
    by outcome. *)
Lemma main_filesystem (genai : GenAI) (w : World) :
  (fs (main genai w).1 = fs w ∨
   ∃ data, fs (main genai w).1 = <[content_path w := File true data]> (fs w)) ∧
  ∀ ev, ev ∈ events_of w (main genai w).1 →
    ev = Call_open CONTENT_MD "w" ∨ fs_target (cwd w) ev = None ∨
    (fs_target (cwd w) ev = Some (content_path w) ∧ ∀ p m, ev ≠ Call_open p m).
Proof.
  split.
  - run_cases genai w; cbn [fst fs emit set_fs raise]; eauto.
  - intros ev Hev.
    destruct (main genai w).2 as [e|[]] eqn:Hout.
    + pose proof (main_abnormal_inv genai w e Hout) as Hf.
      destruct Hf; unfold ev_open, ev_request, ev_client, ev_credential in Hev;
        cbn [app] in Hev; in_events Hev; cbn [fs_target]; eauto.
    + destruct (main_normal_inv genai w Hout) as (c & r & t & HC & Hin & HG & HT & HO).
      destruct (main_completes genai w c r t HC Hin HG HT HO) as (_ & _ & Hev').
      rewrite Hev' in Hev. unfold ev_open, ev_request, ev_client, ev_credential in Hev.
      cbn [app] in Hev. in_events Hev; cbn [fs_target]; eauto.
Qed.

(** C8, as worded, fails.  Where [content.md] of the working directory is
    a link to a file stored elsewhere, [open] follows the link: the run
    overwrites that other file. *)
Lemma linked_content_md_changes_another_file :
  resolve (cwd Edge.w_linked) "content.md" = "/home/u/content.md" ∧
  fs Edge.w_linked !! "/srv/notes.txt" = Some (File true "keep") ∧
  fs (main Stub.echo Edge.w_linked).1 !! "/srv/notes.txt"
    = Some (File true "re: hello") ∧
  ¬ only_cwd_content_md_changes Edge.w_linked (main Stub.echo Edge.w_linked).1.
Proof.
  assert (fs Edge.w_linked !! "/srv/notes.txt" = Some (File true "keep")) as Hold
    by (vm_compute; reflexivity).
  assert (fs (main Stub.echo Edge.w_linked).1 !! "/srv/notes.txt"
          = Some (File true "re: hello")) as Hnew by (vm_compute; reflexivity).
  split; [vm_compute; reflexivity|]. split; [exact Hold|]. split; [exact Hnew|].
  intros Hframe. specialize (Hframe "/srv/notes.txt").
  rewrite Hold, Hnew in Hframe.
  assert (Some (File true "re: hello") = Some (File true "keep")) as Heq
    by (apply Hframe; vm_compute; discriminate).
  discriminate Heq.
Qed.

(** C8, amended.  The only path the script gives to [open] is
    [content.md], for writing; its writes and its close are on the file
    that name leads to, which is [content.md] of the working directory
    unless that is a link; every other file holds after the run what it
    held before, and no link is changed. *)
Theorem only_content_md_touched (genai : GenAI) (w : World) :
  (∀ p mode, Call_open p mode ∈ events_of w (main genai w).1 →
     p = "content.md" ∧ mode = "w") ∧
  (∀ ev p, ev ∈ events_of w (main genai w).1 →
     fs_target (cwd w) ev = Some p →
     ev = Call_open "content.md" "w" ∨ p = content_path w) ∧
  (links (fs w) !! resolve (cwd w) "content.md" = None →
   content_path w = resolve (cwd w) "content.md") ∧
  (∀ p, p ≠ content_path w → fs (main genai w).1 !! p = fs w !! p) ∧
  links (fs (main genai w).1) = links (fs w).
Proof.
  destruct (main_filesystem genai w) as [Hfs Hev].
  split; [|split; [|split; [|split]]].
  - intros p mode Hin. destruct (Hev _ Hin) as [Heq|[Hnone|[_ Hne]]].
    + by injection Heq as -> ->.
    + discriminate.
    + by destruct (Hne p mode).
  - intros ev p Hin Hp. destruct (Hev ev Hin) as [->|[Hnone|[Hsome _]]].
    + by left.
    + congruence.
    + right. rewrite Hsome in Hp. by injection Hp as <-.
  - intros Hnolink. unfold content_path, target, CONTENT_MD. by rewrite Hnolink.
  - intros p Hp. destruct Hfs as [->|[data ->]]; [done|]. by rewrite fs_lookup_insert_ne.
  - by destruct Hfs as [->|[data ->]].
Qed.

(** C9. When the client cannot be built, or standard input is at end of
    file, or the request fails, the run ends abnormally with the filesystem
    as it was, and no filesystem call ([open], [write], [close]) is among
    its events: [content.md] is neither created nor truncated. *)
Theorem early_fault_leaves_filesystem (genai : GenAI) (w : World) :
  (∃ e, Client genai [] (environ w) = inl e) ∨
  stdin w = "" ∨
  (∃ c e, Client genai [] (environ w) = inr c ∧
          generate_content genai c MODEL (prompt_of w) = inl e) →
  (∃ e, (main genai w).2 = inl e) ∧
  fs (main genai w).1 = fs w ∧
  ∀ ev, ev ∈ events_of w (main genai w).1 → fs_target (cwd w) ev = None.
Proof.
  intros Hearly.
  assert (∃ e evs, failure genai w e evs ∧ fs (main genai w).1 = fs w ∧
                   ∀ ev, ev ∈ evs → fs_target (cwd w) ev = None)
    as (e & evs & Hf & Hfs & Hnone).
  { destruct (Client genai [] (environ w)) as [e|c] eqn:HC.
    { exists e, (ev_client w ++ [Raise e]). split; [by apply fail_Client|].
      split; [by rewrite (main_Client_raises genai w e HC)|].
      intros ev Hev. cbn in Hev. by in_events Hev. }
    destruct (decide (stdin w = "")) as [Hin|Hin].
    { exists EOFError, (ev_client w ++ [Call_input; Raise EOFError]).
      split; [by eapply fail_input|].
      split; [by rewrite (main_input_raises genai w c HC Hin)|].
      intros ev Hev. cbn in Hev. by in_events Hev. }
    destruct Hearly as [[e He]|[Hempty|(c' & e & HC' & HG)]]; [done..|].
    injection HC' as <-.
    exists e, (ev_request w ++ [Raise e]).
    split; [by eapply fail_generate_content|].
    split; [by rewrite (main_respond genai w c HC Hin), HG|].
    intros ev Hev. cbn in Hev. by in_events Hev. }
  destruct (main_failure genai w e evs Hf) as [Hout Hev].
  split; [by exists e|]. split; [exact Hfs|]. by rewrite Hev.
Qed.

Lemma early_fault_leaves_filesystem_witness :
  (∃ e, (main Stub.echo (set_stdin "" Stub.w0)).2 = inl e) ∧
  fs (main Stub.echo (set_stdin "" Stub.w0)).1 = fs (set_stdin "" Stub.w0) ∧
  ∀ ev, ev ∈ events_of (set_stdin "" Stub.w0) (main Stub.echo (set_stdin "" Stub.w0)).1 →
    fs_target (cwd (set_stdin "" Stub.w0)) ev = None.
Proof.
  apply (early_fault_leaves_filesystem Stub.echo (set_stdin "" Stub.w0)).
  right. left. reflexivity.
Defined.

(** ** Further properties of the script *)



(** The events of a run, by outcome: one of the lists of [failure], or the
    list of a complete run. *)
Lemma main_events_cases (genai : GenAI) (w : World) :
  (∃ e, (main genai w).2 = inl e ∧ failure genai w e (events_of w (main genai w).1)) ∨
  (∃ t, (main genai w).2 = inr () ∧
        events_of w (main genai w).1 =
          ev_open w ++ [Call_write (content_path w) (PyStr t);
                        Call_close (content_path w)]).
Proof.
  destruct (main genai w).2 as [e|[]] eqn:Hout.
  - left. exists e. split; [done|]. by apply main_abnormal_inv.
  - right. destruct (main_normal_inv genai w Hout) as (c & r & t & HC & Hin & HG & HT & HO).
    destruct (main_completes genai w c r t HC Hin HG HT HO) as (_ & _ & Hev).
    by exists t.
Qed.

(** X1. Whatever the outcome of the run, standard output gets exactly one
    line, the credential as [print] renders it: a set credential appears
    verbatim, and nothing else (the response text in particular) is
    printed. *)
Theorem stdout_is_the_credential_line (genai : GenAI) (w : World) :
  stdout (main genai w).1 = stdout w +:+ str (credential w) +:+ NL ∧
  (∀ v, environ w !! GEMINI_API_KEY = Some v →
        stdout (main genai w).1 = stdout w +:+ v +:+ NL) ∧
  (∀ v, Call_print v ∈ events_of w (main genai w).1 → v = credential w).
Proof.
  split; [apply main_stdout|]. split.
  - intros v Hv. rewrite main_stdout. unfold credential. by rewrite Hv.
  - intros v Hp.
    destruct (main_events_cases genai w) as [(e & _ & Hf)|(t & _ & Hev)].
    + destruct Hf; unfold ev_open, ev_request, ev_client, ev_credential in Hp;
        cbn [app] in Hp; in_events Hp; try discriminate; by injection Hp as ->.
    + rewrite Hev in Hp. unfold ev_open, ev_request, ev_client, ev_credential in Hp.
      cbn [app] in Hp. in_events Hp; try discriminate; by injection Hp as ->.
Qed.



(** X3. The exit status is 0 exactly when the client is built, a line is
    there to read, the request returns a response whose text is a string,
    and [content.md] can be opened for writing. *)
Theorem exit_status_zero_iff (genai : GenAI) (w : World) :
  exit_status (main genai w).2 = 0%Z ↔
  ∃ c r t,
    Client genai [] (environ w) = inr c ∧ stdin w ≠ "" ∧
    generate_content genai c MODEL (prompt_of w) = inr r ∧
    text genai r = PyStr t ∧ can_open_w (fs w) (content_path w) = true.
Proof.
  split.
  - intros Hexit. apply main_normal_inv.
    by destruct (main genai w).2 as [e|[]].
  - intros (c & r & t & HC & Hin & HG & HT & HO).
    destruct (main_completes genai w c r t HC Hin HG HT HO) as (-> & _). done.
Qed.

(** X4. No exception is swallowed: an exception is raised during a run
    exactly when it is the outcome of the run. *)
Theorem raised_iff_outcome (genai : GenAI) (w : World) (e : exn) :
  Raise e ∈ events_of w (main genai w).1 ↔ (main genai w).2 = inl e.
Proof.
  destruct (main_events_cases genai w) as [(e' & Hout & Hf)|(t & Hout & Hev)].
  - rewrite Hout. split.
    + intros Hr. destruct Hf; unfold ev_open, ev_request, ev_client, ev_credential in Hr;
        cbn [app] in Hr; in_events Hr; try discriminate; by injection Hr as ->.
    + intros [= ->]. destruct Hf; set_solver.
  - rewrite Hout, Hev. split; [|done].
    intros Hr. unfold ev_open, ev_request, ev_client, ev_credential in Hr.
    cbn [app] in Hr. in_events Hr; discriminate.
Qed.

(** X5. The file is tested only after the request: when [content.md] is a
    directory or a read-only file, a run that gets a response has made the
    request, ends with the exception of [open], writes nothing and leaves
    the filesystem as it was. *)
Theorem unwritable_target_found_after_request
    (genai : GenAI) (w : World) (c : client genai) (r : response genai) :
  can_open_w (fs w) (content_path w) = false →
  Client genai [] (environ w) = inr c →
  stdin w ≠ "" →
  generate_content genai c MODEL (prompt_of w) = inr r →
  Call_generate_content MODEL (prompt_of w) ∈ events_of w (main genai w).1 ∧
  (main genai w).2 =
    inl (match fs w !! content_path w with
         | Some Dir => IsADirectoryError
         | _ => PermissionError
         end) ∧
  fs (main genai w).1 = fs w ∧
  ∀ p v, Call_write p v ∉ events_of w (main genai w).1.
Proof.
  intros HO HC Hin HG.
  assert (∃ e, failure genai w e (ev_open w ++ [Raise e]) ∧
               e = match fs w !! content_path w with
                   | Some Dir => IsADirectoryError
                   | _ => PermissionError
                   end) as (e & Hf & He).
  { unfold can_open_w in HO.
    destruct (fs w !! content_path w) as [[[|] data|]|] eqn:HD; try discriminate.
    - eexists. split; [by eapply fail_open_permission|done].
    - eexists. split; [by eapply fail_open_directory|done]. }
  destruct (main_failure genai w e _ Hf) as [Hout Hev].
  split; [rewrite Hev; unfold ev_open, ev_request; set_solver|].
  split; [by rewrite Hout, He|]. split.
  - rewrite (main_respond genai w c HC Hin), HG. unfold respond.
    by rewrite persist_open_raises by exact HO.
  - intros p v Hw. rewrite Hev in Hw.
    unfold ev_open, ev_request, ev_client, ev_credential in Hw. cbn [app] in Hw.
    in_events Hw; discriminate.
Qed.

Lemma unwritable_target_found_after_request_witness :
  Call_generate_content MODEL (prompt_of Edge.w_readonly)
    ∈ events_of Edge.w_readonly (main Stub.echo Edge.w_readonly).1 ∧
  (main Stub.echo Edge.w_readonly).2 =
    inl (match fs Edge.w_readonly !! content_path Edge.w_readonly with
         | Some Dir => IsADirectoryError
         | _ => PermissionError
         end) ∧
  fs (main Stub.echo Edge.w_readonly).1 = fs Edge.w_readonly ∧
  ∀ p v, Call_write p v ∉ events_of Edge.w_readonly (main Stub.echo Edge.w_readonly).1.
Proof.
  apply (unwritable_target_found_after_request Stub.echo Edge.w_readonly
           "k3y" (PyStr "re: hello")).
  - vm_compute. reflexivity.
  - vm_compute. reflexivity.
  - vm_compute. discriminate.
  - vm_compute. reflexivity.
Defined.

(** X6. A file the run has opened is closed by the end of the run, on a
    fault of the write as on success: whenever [file.write] was called,
    the last event of the run is the close of [content.md]. *)
Theorem opened_file_is_closed
    (genai : GenAI) (w : World) (p : string) (v : pyval) :
  Call_write p v ∈ events_of w (main genai w).1 →
  p = content_path w ∧
  last (events_of w (main genai w).1) = Some (Call_close (content_path w)).
Proof.
  intros Hw.
  destruct (main_events_cases genai w) as [(e & _ & Hf)|(t & _ & Hev)].
  - destruct Hf; unfold ev_open, ev_request, ev_client, ev_credential in *;
      cbn [app] in *; in_events Hw; try discriminate.
    injection Hw as -> _. done.
  - rewrite Hev in *. unfold ev_open, ev_request, ev_client, ev_credential in *.
    cbn [app] in *. in_events Hw; try discriminate.
    injection Hw as -> _. done.
Qed.

Lemma opened_file_is_closed_witness :
  "/home/u/content.md" = content_path Stub.w0 ∧
  last (events_of Stub.w0 (main (Stub.canned (inr PyNone)) Stub.w0).1)
    = Some (Call_close (content_path Stub.w0)).
Proof.
  apply (opened_file_is_closed (Stub.canned (inr PyNone)) Stub.w0
           "/home/u/content.md" PyNone).
  vm_compute. set_solver.
Defined.

(** X7. Nothing is retried or repeated: no call occurs twice among the
    events of a run, and a run has at most nine events. *)
Theorem no_call_repeated (genai : GenAI) (w : World) :
  NoDup (events_of w (main genai w).1) ∧
  (length (events_of w (main genai w).1) ≤ 9)%nat.
Proof.
  destruct (main_events_cases genai w) as [(e & _ & Hf)|(t & _ & Hev)].
  - destruct Hf; unfold ev_open, ev_request, ev_client, ev_credential; cbn [app];
      (split; [|cbn; lia]);
      repeat (apply NoDup_cons; split;
              [let H := fresh in intros H; in_events H; discriminate|]);
      apply NoDup_nil_2.
  - rewrite Hev. unfold ev_open, ev_request, ev_client, ev_credential; cbn [app].
    split; [|cbn; lia].
    repeat (apply NoDup_cons; split;
            [let H := fresh in intros H; in_events H; discriminate|]).
    apply NoDup_nil_2.
Qed.



(** The filesystem after a run: as before, or with [content.md] replaced,
    which happens only where it could be opened. *)
Lemma main_fs_shape (genai : GenAI) (w : World) :
  fs (main genai w).1 = fs w ∨
  ∃ data, can_open_w (fs w) (content_path w) = true ∧
          fs (main genai w).1 = <[content_path w := File true data]> (fs w).
Proof. run_cases genai w; cbn [fst fs emit set_fs raise]; eauto. Qed.


(** X10. A faulted run does not spoil the next one: after any run, normal
    or not, started where [content.md] could be opened for writing, a
    following run that gets a response with text [t] ends normally and
    leaves exactly [t] in [content.md]. *)
Theorem next_run_recovers
    (genai1 genai2 : GenAI) (w0 w1 : World)
    (c : client genai2) (r : response genai2) (t : string) :
  can_open_w (fs w0) (content_path w0) = true →
  fs w1 = fs (main genai1 w0).1 →
  cwd w1 = cwd w0 →
  Client genai2 [] (environ w1) = inr c →
  stdin w1 ≠ "" →
  generate_content genai2 c MODEL (prompt_of w1) = inr r →
  text genai2 r = PyStr t →
  (main genai2 w1).2 = inr () ∧
  fs (main genai2 w1).1 !! content_path w1 = Some (File true t).
Proof.
  intros HO0 Hfs Hcwd HC Hin HG HT.
  assert (can_open_w (fs w1) (content_path w1) = true) as HO.
  { unfold content_path. rewrite Hfs, Hcwd. fold (content_path w0).
    destruct (main_fs_shape genai1 w0) as [->|(data & _ & ->)]; [exact HO0|].
    unfold can_open_w. by rewrite fs_lookup_insert_eq. }
  destruct (complete_run_file genai2 w1 c r t HC Hin HG HT HO) as (Hout & Hfile & _).
  done.
Qed.

Lemma next_run_recovers_witness :
  (main Stub.echo Edge.w_after_fault).2 = inr () ∧
  fs (main Stub.echo Edge.w_after_fault).1 !! content_path Edge.w_after_fault
    = Some (File true "re: again").
Proof.
  apply (next_run_recovers (Stub.canned (inr PyNone)) Stub.echo Stub.w0
           Edge.w_after_fault "k3y" (PyStr "re: again") "re: again").
  - vm_compute. reflexivity.
  - vm_compute. reflexivity.
  - vm_compute. reflexivity.
  - vm_compute. reflexivity.
  - vm_compute. discriminate.
  - vm_compute. reflexivity.
  - vm_compute. reflexivity.
Defined.
